(** * Agro_Scan backend: the crop-disease prediction service

    A shallow embedding of [backend/main.py]: the FastAPI application with
    its CORS middleware, the model loaded at import time, the handler of
    [POST /predict] and the handler of [GET /].

    The handler is glue around three libraries (PIL, transformers, torch).
    Their calls are kept abstract in the class [Libs]; everything the file
    itself does (the content-type guard, the [try]/[except Exception]
    boundary, the [with torch.no_grad()] block, the argmax/label lookup and
    the two response dictionaries) is written out. *)

From Stdlib Require Import String Ascii List ZArith Lia Bool.
From stdpp Require Import base option list gmap strings pretty.
Import ListNotations.
Local Open Scope string_scope.

(** ** Python values *)

Definition bytes := list Byte.byte.

(** An exception object.  [HTTPException] is FastAPI's; every other class
    is kept by name, together with whether it derives from [Exception]
    (as opposed to deriving from [BaseException] only, like
    [KeyboardInterrupt], [SystemExit] or [asyncio.CancelledError]) and
    with the text [str(e)] evaluates to. *)
Inductive PyExc :=
| HTTPException (status_code : nat) (detail : string)
| Exc (cls : string) (derives_Exception : bool) (msg : string).

(** [isinstance(e, Exception)], the test [except Exception] performs. *)
Definition isinstance_Exception (e : PyExc) : bool :=
  match e with
  | HTTPException _ _ => true
  | Exc _ b _ => b
  end.

(** [str(e)]. *)
Definition str (e : PyExc) : string :=
  match e with
  | HTTPException s d => pretty s ++ ": " ++ d
  | Exc _ _ m => m
  end.

(** A JSON object with string values: the only bodies the handlers build. *)
Definition Dict := list (string * string).

(** The uploaded file, as the handler sees it: the declared content type of
    the multipart part (absent when the part has no Content-Type header)
    and what [await file.read()] evaluates to. *)
Record UploadFile := {
  content_type : option string;
  read : PyExc + bytes
}.

(** ** CORS configuration *)

Record CORSMiddleware := {
  allow_origins : list string;
  allow_credentials : bool;
  allow_methods : list string;
  allow_headers : list string
}.

(** Membership with the wildcard entry ["*"], as the middleware decides
    origins and requested headers. *)
Definition listed (entries : list string) (x : string) : bool :=
  existsb (String.eqb "*") entries || existsb (String.eqb x) entries.

Definition origin_allowed (c : CORSMiddleware) (origin : string) : bool :=
  listed (allow_origins c) origin.
(** The methods Starlette's middleware puts in place of [allow_methods]
    when ["*"] is among them. *)
Definition ALL_METHODS : list string :=
  ["DELETE"; "GET"; "HEAD"; "OPTIONS"; "PATCH"; "POST"; "PUT"].

(** The methods the middleware accepts in a preflight request: a requested
    method is looked up, as it is spelled, among the configured ones, or
    among [ALL_METHODS] when the configuration holds ["*"]. *)
Definition method_allowed (c : CORSMiddleware) (method : string) : bool :=
  existsb (String.eqb method)
    (if existsb (String.eqb "*") (allow_methods c) then ALL_METHODS
     else allow_methods c).
Definition header_allowed (c : CORSMiddleware) (header : string) : bool :=
  listed (allow_headers c) header.

(** The application object: its middleware stack and, for each route, the
    method, the path and the name of the handler. *)
Record FastAPI := {
  user_middleware : list CORSMiddleware;
  routes : list (string * string * string)
}.

(** The middleware configured by [app.add_middleware]. *)
Definition cors : CORSMiddleware :=
  {| allow_origins := ["http://localhost:3000"];
     allow_credentials := true;
     allow_methods := ["*"];
     allow_headers := ["*"] |}.

(** The application object once the module has been executed: method, path
    and handler name of each route. *)
Definition the_app : FastAPI :=
  {| user_middleware := [cors];
     routes := [("POST", "/predict", "predict"); ("GET", "/", "root")] |}.

(** ** Outcomes and responses *)

(** A handler returns a value or raises. *)
Inductive Outcome (A : Type) :=
| Return (a : A)
| Raise (e : PyExc).
Arguments Return {A} a.
Arguments Raise {A} e.

Inductive Content :=
| JSON (obj : Dict)
| Text (s : string).

Record Response := { status : nat; content : Content }.

(** What FastAPI sends for the outcome of a handler: the returned
    dictionary with status 200; for an [HTTPException] its status with the
    detail as body; for any other [Exception] the generic 500 page.  An
    exception outside [Exception] is not turned into a response. *)
Definition respond (o : Outcome Dict) : option Response :=
  match o with
  | Return d => Some {| status := 200; content := JSON d |}
  | Raise (HTTPException s d) =>
      Some {| status := s; content := JSON [("detail", d)] |}
  | Raise (Exc _ true _) =>
      Some {| status := 500; content := Text "Internal Server Error" |}
  | Raise (Exc _ false _) => None
  end.

(** ** The libraries *)

(** The operations of PIL, transformers and torch that [main.py] calls.
    Each returns normally or raises, and its answer depends on its
    arguments only: the loaded objects are read, never written. *)
Class Libs := {
  Image : Type;
  Tensor : Type;
  Score : Type;
  Extractor : Type;
  Model : Type;
  (** [Image.open(io.BytesIO(contents))] *)
  Image_open : bytes -> PyExc + Image;
  (** [image.mode] *)
  Image_mode : Image -> string;
  (** [image.convert(mode)] *)
  Image_convert : string -> Image -> PyExc + Image;
  (** [ViTFeatureExtractor.from_pretrained(name)] *)
  ViTFeatureExtractor_from_pretrained : string -> PyExc + Extractor;
  (** [ViTForImageClassification.from_pretrained(name,
      ignore_mismatched_sizes=...)] *)
  ViTForImageClassification_from_pretrained : string -> bool -> PyExc + Model;
  (** [feature_extractor(images=image, return_tensors="pt")] *)
  Extractor_call : Extractor -> Image -> PyExc + Tensor;
  (** the [logits] of the model applied to the inputs: a batch of rows of
      class scores, computed under the current gradient mode *)
  Model_call : Model -> bool -> Tensor -> PyExc + list (list Score);
  (** [model.config.id2label] *)
  config_id2label : Model -> gmap nat string;
  (** the order torch compares scores with, [x <= y]; a total preorder
      (torch ranks NaN above every number) *)
  score_le : Score -> Score -> bool
}.

Section Service.
Context {L : Libs}.

(** ** Process state and the handler monad *)

(** Module-level state of the running process: the application object, the
    two globals bound at import time, torch's gradient mode and what has
    been printed. *)
Record Process := {
  app : FastAPI;
  feature_extractor : Extractor;
  model : Model;
  grad_enabled : bool;
  stdout : list string
}.

Definition set_grad_enabled (b : bool) (p : Process) : Process :=
  {| app := app p; feature_extractor := feature_extractor p;
     model := model p; grad_enabled := b; stdout := stdout p |}.

(** Calls that leave the handler's own code. *)
Inductive Event :=
| EvRead
| EvImageOpen (contents : bytes)
| EvConvert (mode : string) (im : Image)
| EvExtractor (fe : Extractor) (im : Image)
| EvModel (m : Model) (grad : bool) (inputs : Tensor).

(** A computation runs in a process state and gives an outcome, the state
    it leaves and the calls it made, oldest first. *)
Definition M (A : Type) : Type := Process -> Outcome A * Process * list Event.

Definition outcome {A} (r : Outcome A * Process * list Event) : Outcome A :=
  fst (fst r).
Definition final {A} (r : Outcome A * Process * list Event) : Process :=
  snd (fst r).
Definition trace {A} (r : Outcome A * Process * list Event) : list Event :=
  snd r.

#[local] Instance M_ret : MRet M := fun A a p => (Return a, p, []).
#[local] Instance M_bind : MBind M := fun A B k m p =>
  match m p with
  | (Return a, p', t) =>
      match k a p' with (o, p'', t') => (o, p'', (t ++ t')%list) end
  | (Raise e, p', t) => (Raise e, p', t)
  end.

Definition raise {A} (e : PyExc) : M A := fun p => (Raise e, p, []).

(** A pure step that may raise. *)
Definition lift {A} (r : PyExc + A) : M A := fun p =>
  (match r with inl e => Raise e | inr a => Return a end, p, []).

(** A library call. *)
Definition call {A} (ev : Event) (r : PyExc + A) : M A := fun p =>
  (match r with inl e => Raise e | inr a => Return a end, p, [ev]).

(** Reading a module-level global. *)
Definition global {A} (field : Process -> A) : M A := fun p =>
  (Return (field p), p, []).

(** [try: body / except Exception as e: handler e]. *)
Definition try_except_Exception {A} (body : M A) (handler : PyExc -> M A)
  : M A := fun p =>
  match body p with
  | (Raise e, p', t) =>
      if isinstance_Exception e
      then match handler e p' with (o, p'', t') => (o, p'', (t ++ t')%list) end
      else (Raise e, p', t)
  | r => r
  end.

(** [with torch.no_grad(): body]: the gradient mode is switched off on
    entry and the previous mode is put back on exit, however the body
    leaves. *)
Definition with_no_grad {A} (body : M A) : M A := fun p =>
  let prev := grad_enabled p in
  match body (set_grad_enabled false p) with
  | (o, p', t) => (o, set_grad_enabled prev p', t)
  end.

(** ** torch: argmax and item *)

(** Scan of a row from position [i] on, [best] being the largest score seen
    so far and [best_i] the first position where it occurs: a later score
    replaces it only when it is strictly larger. *)
Fixpoint argmax_from (best_i : nat) (best : Score) (i : nat)
  (row : list Score) : nat :=
  match row with
  | [] => best_i
  | x :: row' =>
      if score_le x best then argmax_from best_i best (S i) row'
      else argmax_from i x (S i) row'
  end.

(** [row.argmax()]: the index of the first maximal value; an empty row has
    none. *)
Definition argmax (row : list Score) : PyExc + nat :=
  match row with
  | [] => inl (Exc "IndexError" true
             "argmax(): Expected reduction dim 1 to have non-zero size.")
  | x :: row' => inr (argmax_from 0 x 1 row')
  end.

(** [i] is the position of the first maximum of [row]: the score there
    is reached by no earlier position and exceeded by none. *)
Definition first_max (row : list Score) (i : nat) : Prop :=
  exists best,
    row !! i = Some best /\
    (forall j x, row !! j = Some x -> score_le x best = true) /\
    (forall j x, j < i -> row !! j = Some x -> score_le best x = false).

(** [logits.argmax(-1)]: the reduction along the last dimension, one index
    for each row of the batch.  A batch without rows is taken to have rows
    of non-zero width, for which torch answers an empty tensor. *)
Fixpoint argmax_last (logits : list (list Score)) : PyExc + list nat :=
  match logits with
  | [] => inr []
  | row :: rest =>
      match argmax row with
      | inl e => inl e
      | inr i =>
          match argmax_last rest with
          | inl e => inl e
          | inr rest_idx => inr (i :: rest_idx)
          end
      end
  end.

(** [t.item()]: the value of a tensor that has exactly one element. *)
Definition item (t : list nat) : PyExc + nat :=
  match t with
  | [i] => inr i
  | _ => inl (Exc "RuntimeError" true
            ("a Tensor with " ++ pretty (length t)
             ++ " elements cannot be converted to Scalar"))
  end.

(** [d[k]] on a dictionary with integer keys. *)
Definition getitem (d : gmap nat string) (k : nat) : PyExc + string :=
  match d !! k with
  | Some v => inr v
  | None => inl (Exc "KeyError" true (pretty k))
  end.

(** [s.startswith(prefix)], where [s] may be [None]. *)
Definition startswith (s : option string) (prefix : string) : M bool :=
  match s with
  | Some s => mret (String.prefix prefix s)
  | None => raise (Exc "AttributeError" true
              "'NoneType' object has no attribute 'startswith'")
  end.

(** ** The handlers *)

(** The body of the [try] block of [predict]. *)
Definition predict_body (file : UploadFile) : M Dict :=
  contents ← call EvRead (read file);
  opened ← call (EvImageOpen contents) (Image_open contents);
  image ← call (EvConvert "RGB" opened) (Image_convert "RGB" opened);
  fe ← global feature_extractor;
  inputs ← call (EvExtractor fe image) (Extractor_call fe image);
  outputs ← with_no_grad (
    m ← global model;
    grad ← global grad_enabled;
    call (EvModel m grad inputs) (Model_call m grad inputs));
  indices ← lift (argmax_last outputs);
  predicted_class_idx ← lift (item indices);
  m ← global model;
  predicted_class ← lift (getitem (config_id2label m) predicted_class_idx);
  mret [("prediction", predicted_class)].

(** [@app.post("/predict")] *)
Definition predict (file : UploadFile) : M Dict :=
  is_image ← startswith (content_type file) "image/";
  if negb is_image
  then raise (HTTPException 400 "File provided is not an image")
  else try_except_Exception (predict_body file)
         (fun e => raise (HTTPException 500 (str e))).

(** [@app.get("/")] *)
Definition root : M Dict :=
  mret [("message", "Crop Disease Detection API is running!")].

(** ** Import time *)

(** Execution of the module: both loads succeed and the process starts, or
    the first failure ends it. *)
Definition startup : PyExc + Process :=
  match ViTFeatureExtractor_from_pretrained
          "wambugu71/crop_leaf_diseases_vit" with
  | inl e => inl e
  | inr fe =>
      match ViTForImageClassification_from_pretrained
              "wambugu1738/crop_leaf_diseases_vit" true with
      | inl e => inl e
      | inr m =>
          inr {| app := the_app; feature_extractor := fe; model := m;
                 grad_enabled := true;
                 stdout := ["Loading model..."; "Model loaded successfully!"] |}
      end
  end.

(** A sequence of uploads handled one after the other. *)
Fixpoint serve (files : list UploadFile) (p : Process) : Process :=
  match files with
  | [] => p
  | file :: files' => serve files' (final (predict file p))
  end.

(** ** The stages of a request *)


Inductive Stage := Reading | Decoding | Preprocessing | Inference.

(** [raises_at file p stage e]: handling [file] in state [p] gets as far as
    [stage], and there the library raises [e]. *)
Inductive raises_at (file : UploadFile) (p : Process) : Stage -> PyExc -> Prop :=
| raises_read e :
    read file = inl e ->
    raises_at file p Reading e
| raises_open contents e :
    read file = inr contents ->
    Image_open contents = inl e ->
    raises_at file p Decoding e
| raises_convert contents opened e :
    read file = inr contents ->
    Image_open contents = inr opened ->
    Image_convert "RGB" opened = inl e ->
    raises_at file p Decoding e
| raises_extractor contents opened image e :
    read file = inr contents ->
    Image_open contents = inr opened ->
    Image_convert "RGB" opened = inr image ->
    Extractor_call (feature_extractor p) image = inl e ->
    raises_at file p Preprocessing e
| raises_model contents opened image inputs e :
    read file = inr contents ->
    Image_open contents = inr opened ->
    Image_convert "RGB" opened = inr image ->
    Extractor_call (feature_extractor p) image = inr inputs ->
    Model_call (model p) false inputs = inl e ->
    raises_at file p Inference e.

(** The outcome and the calls of the [try] block in closed form, by cases
    on what the libraries answer; [predict_body_eq] below shows that
    [predict_body] computes exactly this. *)
Definition body_result (file : UploadFile) (p : Process)
  : Outcome Dict * list Event :=
  match read file with
  | inl e => (Raise e, [EvRead])
  | inr contents =>
    match Image_open contents with
    | inl e => (Raise e, [EvRead; EvImageOpen contents])
    | inr opened =>
      let t2 := [EvRead; EvImageOpen contents; EvConvert "RGB" opened] in
      match Image_convert "RGB" opened with
      | inl e => (Raise e, t2)
      | inr image =>
        let fe := feature_extractor p in
        let t3 := (t2 ++ [EvExtractor fe image])%list in
        match Extractor_call fe image with
        | inl e => (Raise e, t3)
        | inr inputs =>
          let t4 := (t3 ++ [EvModel (model p) false inputs])%list in
          match Model_call (model p) false inputs with
          | inl e => (Raise e, t4)
          | inr outputs =>
            match argmax_last outputs with
            | inl e => (Raise e, t4)
            | inr indices =>
              match item indices with
              | inl e => (Raise e, t4)
              | inr idx =>
                match getitem (config_id2label (model p)) idx with
                | inl e => (Raise e, t4)
                | inr label => (Return [("prediction", label)], t4)
                end
              end
            end
          end
        end
      end
    end
  end.

(** ** Calls and sequences of requests *)

(** Which library operation a call is. *)
Inductive Kind := KRead | KImageOpen | KConvert | KExtractor | KModel.

Definition kind_of (ev : Event) : Kind :=
  match ev with
  | EvRead => KRead
  | EvImageOpen _ => KImageOpen
  | EvConvert _ _ => KConvert
  | EvExtractor _ _ => KExtractor
  | EvModel _ _ _ => KModel
  end.

(** The library operations in the order the [try] block names them. *)
Definition call_order : list Kind :=
  [KRead; KImageOpen; KConvert; KExtractor; KModel].

(** The outcomes of a sequence of uploads handled one after the other,
    each in the state its predecessor left. *)
Fixpoint serve_outcomes (files : list UploadFile) (p : Process)
  : list (Outcome Dict) :=
  match files with
  | [] => []
  | file :: files' =>
      outcome (predict file p) :: serve_outcomes files' (final (predict file p))
  end.

End Service.

(** ** A small instance of the libraries

    Images are a mode and a payload.  The first byte of an upload names the
    mode, the remaining bytes are the payload; an empty upload is not an
    image.  The transform hands the payload on and the model scores each of
    its three classes with the payload byte at the index of the class, or
    with 0 past the end of the payload. *)

Module Demo.

Definition mode_of (b : Byte.byte) : string :=
  match Byte.to_N b with
  | 1%N => "L"
  | 2%N => "P"
  | 3%N => "RGBA"
  | _ => "RGB"
  end.

Definition score_of (payload : bytes) (i : nat) : Z :=
  match nth_error payload i with
  | Some b => Z.of_N (Byte.to_N b)
  | None => 0%Z
  end.

Definition labels : gmap nat string :=
  <[0 := "Corn___Common_Rust"]> (<[1 := "Potato___Early_Blight"]>
    (<[2 := "Wheat___Healthy"]> ∅)).

#[export] Instance libs : Libs := {|
  Image := string * bytes;
  Tensor := bytes;
  Score := Z;
  Extractor := unit;
  Model := unit;
  Image_open contents :=
    match contents with
    | [] => inl (Exc "UnidentifiedImageError" true
               "cannot identify image file")
    | b :: payload => inr (mode_of b, payload)
    end;
  Image_mode im := fst im;
  Image_convert m im := inr (m, snd im);
  ViTFeatureExtractor_from_pretrained _ := inr tt;
  ViTForImageClassification_from_pretrained _ _ := inr tt;
  Extractor_call _ im := inr (snd im);
  Model_call _ _ inputs := inr [map (score_of inputs) [0; 1; 2]];
  config_id2label _ := labels;
  score_le := Z.leb
|}.

Definition process : Process :=
  {| app := the_app; feature_extractor := tt; model := tt;
     grad_enabled := true;
     stdout := ["Loading model..."; "Model loaded successfully!"] |}.

(** A grayscale upload whose second and third class tie for the maximum. *)
Definition leaf : bytes := [Byte.x01; Byte.x02; Byte.x07; Byte.x07].

Definition upload (ct : option string) (contents : bytes) : UploadFile :=
  {| content_type := ct; read := inr contents |}.

End Demo.

(** The small instance again, with the label table and the logits the model
    answers as parameters. *)

Module Variant.

Definition libs (table : gmap nat string) (logits : bytes -> list (list Z))
  : Libs := {|
  Image := string * bytes;
  Tensor := bytes;
  Score := Z;
  Extractor := unit;
  Model := unit;
  Image_open contents :=
    match contents with
    | [] => inl (Exc "UnidentifiedImageError" true
               "cannot identify image file")
    | b :: payload => inr (Demo.mode_of b, payload)
    end;
  Image_mode im := fst im;
  Image_convert m im := inr (m, snd im);
  ViTFeatureExtractor_from_pretrained _ := inr tt;
  ViTForImageClassification_from_pretrained _ _ := inr tt;
  Extractor_call _ im := inr (snd im);
  Model_call _ _ inputs := inr (logits inputs);
  config_id2label _ := table;
  score_le := Z.leb
|}.

Definition process (table : gmap nat string)
  (logits : bytes -> list (list Z)) : @Process (libs table logits) :=
  @Build_Process (libs table logits) the_app tt tt true
    ["Loading model..."; "Model loaded successfully!"].





(** One score for each payload byte, in one row. *)
Definition one_row (payload : bytes) : list (list Z) :=
  [map (fun b => Z.of_N (Byte.to_N b)) payload].

(** The same row twice: a batch of two. *)
Definition two_rows (payload : bytes) : list (list Z) :=
  one_row payload ++ one_row payload.

End Variant.

(** * Properties *)

Section Properties.
Context {L : Libs}.
Local Open Scope list_scope.

(** ** The [try] block *)

Lemma set_grad_enabled_restore p b :
  set_grad_enabled (grad_enabled p) (set_grad_enabled b p) = p.
Proof. destruct p. reflexivity. Qed.

(** Leaving the [with] block puts the gradient mode back, on a normal exit
    and on an exception alike, whatever the body did to it. *)
Lemma with_no_grad_restores {A} (body : M A) p :
  grad_enabled (final (with_no_grad body p)) = grad_enabled p.
Proof.
  unfold with_no_grad.
  destruct (body (set_grad_enabled false p)) as [[o q] t]. reflexivity.
Qed.

Lemma predict_body_eq file p :
  predict_body file p = (fst (body_result file p), p, snd (body_result file p)).
Proof.
  unfold predict_body, body_result.
  unfold mbind, M_bind, mret, M_ret, call, lift, global, with_no_grad.
  destruct (read file) as [e|contents]; [reflexivity|].
  destruct (Image_open contents) as [e|opened]; [reflexivity|].
  destruct (Image_convert "RGB" opened) as [e|image]; [reflexivity|].
  destruct (Extractor_call (feature_extractor p) image) as [e|inputs];
    [reflexivity|].
  cbn.
  destruct (Model_call (model p) false inputs) as [e|outputs];
    rewrite ?set_grad_enabled_restore; [reflexivity|].
  destruct (argmax_last outputs) as [e|indices]; [reflexivity|].
  destruct (item indices) as [e|idx]; [reflexivity|].
  destruct (getitem (config_id2label (model p)) idx) as [e|label];
    reflexivity.
Qed.

(** Past the content-type guard, [predict] is the [try] block with its
    handler. *)
Lemma predict_guard_passed file ct p :
  content_type file = Some ct ->
  String.prefix "image/" ct = true ->
  predict file p =
  try_except_Exception (predict_body file)
    (fun e => raise (HTTPException 500 (str e))) p.
Proof.
  intros Hct Hpre. unfold predict. rewrite Hct.
  unfold startswith, mbind, M_bind, mret, M_ret. rewrite Hpre. simpl.
  destruct (try_except_Exception _ _ p) as [[o q] t]. reflexivity.
Qed.

Lemma predict_body_Raise file ct p e :
  content_type file = Some ct ->
  String.prefix "image/" ct = true ->
  fst (body_result file p) = Raise e ->
  predict file p =
  (Raise (if isinstance_Exception e then HTTPException 500 (str e) else e),
   p, snd (body_result file p)).
Proof.
  intros Hct Hpre Hbody. rewrite (predict_guard_passed _ _ _ Hct Hpre).
  unfold try_except_Exception. rewrite predict_body_eq, Hbody.
  destruct (isinstance_Exception e); [|reflexivity].
  unfold raise. rewrite app_nil_r. reflexivity.
Qed.

Lemma predict_body_Return file ct p d :
  content_type file = Some ct ->
  String.prefix "image/" ct = true ->
  fst (body_result file p) = Return d ->
  predict file p = (Return d, p, snd (body_result file p)).
Proof.
  intros Hct Hpre Hbody. rewrite (predict_guard_passed _ _ _ Hct Hpre).
  unfold try_except_Exception. rewrite predict_body_eq, Hbody. reflexivity.
Qed.

Lemma raises_at_body file p stage e :
  raises_at file p stage e -> fst (body_result file p) = Raise e.
Proof.
  unfold body_result.
  destruct 1 as [e Hr | c e Hr Ho | c o e Hr Ho Hc | c o i e Hr Ho Hc He
                | c o i x e Hr Ho Hc He Hm];
    rewrite Hr; try rewrite Ho; try rewrite Hc; try rewrite He;
    try rewrite Hm; reflexivity.
Qed.

(** Whatever the upload and whatever the libraries answer, the process
    state after [predict] is the state before it. *)
Lemma predict_final file p : final (predict file p) = p.
Proof.
  unfold predict, startswith.
  destruct (content_type file) as [ct|]; [|reflexivity].
  unfold mbind, M_bind, mret, M_ret.
  destruct (negb (String.prefix "image/" ct)); [reflexivity|].
  unfold try_except_Exception. rewrite predict_body_eq.
  destruct (fst (body_result file p)) as [d|e]; [reflexivity|].
  destruct (isinstance_Exception e); reflexivity.
Qed.

(** ** argmax *)

Hypothesis score_le_total :
  forall x y : Score, score_le x y = true \/ score_le y x = true.
Hypothesis score_le_trans :
  forall x y z : Score,
    score_le x y = true -> score_le y z = true -> score_le x z = true.

Lemma argmax_from_lt best_i best i row :
  best_i < i -> argmax_from best_i best i row < i + length row.
Proof.
  revert best_i best i.
  induction row as [|x row IH]; intros best_i best i Hlt; simpl; [lia|].
  destruct (score_le x best).
  - specialize (IH best_i best (S i)). lia.
  - specialize (IH i x (S i)). lia.
Qed.


(** The scan keeps its invariant: [best] sits at [best_i] in the part
    already seen, nothing seen exceeds it and nothing before [best_i]
    reaches it. *)
Lemma argmax_from_first_max seen row best_i best :
  seen !! best_i = Some best ->
  (forall j x, seen !! j = Some x -> score_le x best = true) ->
  (forall j x, j < best_i -> seen !! j = Some x -> score_le best x = false) ->
  first_max (seen ++ row) (argmax_from best_i best (length seen) row).
Proof.
  revert seen best_i best.
  induction row as [|x row IH]; intros seen best_i best Hat Hmax Hfirst.
  - simpl. rewrite app_nil_r. exists best. auto.
  - simpl. replace (seen ++ x :: row) with ((seen ++ [x]) ++ row)
      by (rewrite <- app_assoc; reflexivity).
    replace (S (length seen)) with (length (seen ++ [x]))
      by (rewrite length_app; simpl; lia).
    destruct (score_le x best) eqn:Hx.
    + apply IH.
      * apply lookup_app_l_Some. exact Hat.
      * intros j y Hj. apply lookup_app_Some in Hj as [Hj | [_ Hj]].
        -- eauto.
        -- apply list_lookup_singleton_Some in Hj as [_ <-]. exact Hx.
      * intros j y Hlt Hj. apply lookup_app_Some in Hj as [Hj | [Hge _]].
        -- eauto.
        -- apply lookup_lt_Some in Hat. lia.
    + assert (Hbx : score_le best x = true)
        by (destruct (score_le_total x best); congruence).
      apply IH.
      * rewrite lookup_app_r by lia. rewrite Nat.sub_diag. reflexivity.
      * intros j y Hj. apply lookup_app_Some in Hj as [Hj | [_ Hj]].
        -- eauto.
        -- apply list_lookup_singleton_Some in Hj as [_ <-].
           destruct (score_le_total x x); assumption.
      * intros j y Hlt Hj. apply lookup_app_Some in Hj as [Hj | [Hge _]];
          [|lia].
        destruct (score_le x y) eqn:Hxy; [|reflexivity].
        rewrite (score_le_trans x y best Hxy (Hmax j y Hj)) in Hx.
        discriminate.
Qed.

Lemma argmax_first_max row i : argmax row = inr i -> first_max row i.
Proof.
  destruct row as [|x row]; simpl; [discriminate|].
  intros [= <-].
  apply (argmax_from_first_max [x] row 0 x).
  - reflexivity.
  - intros j y Hj. apply list_lookup_singleton_Some in Hj as [_ <-].
    destruct (score_le_total x x); assumption.
  - intros j y Hlt. lia.
Qed.

(** ** Inversion of a successful request *)

Lemma item_inr indices idx : item indices = inr idx -> indices = [idx].
Proof.
  destruct indices as [|i [|j rest]]; simpl; try discriminate.
  intros [= <-]. reflexivity.
Qed.

Lemma argmax_last_single outputs idx :
  argmax_last outputs = inr [idx] ->
  exists row, outputs = [row] /\ argmax row = inr idx.
Proof.
  destruct outputs as [|row rest]; simpl; [discriminate|].
  destruct (argmax row) as [e|i] eqn:Hrow; [discriminate|].
  destruct rest as [|row' rest]; simpl.
  - intros [= <-]. exists row. auto.
  - destruct (argmax row') as [e|i']; [discriminate|].
    destruct (argmax_last rest); discriminate.
Qed.

Lemma getitem_inr d k v : getitem d k = inr v -> d !! k = Some v.
Proof. unfold getitem. destruct (d !! k); [intros [= <-]; reflexivity | discriminate]. Qed.

(** Past the guard, the response is decided by the [try] block alone. *)
Lemma predict_image file ct p :
  content_type file = Some ct ->
  String.prefix "image/" ct = true ->
  predict file p =
  (match fst (body_result file p) with
   | Return d => Return d
   | Raise e =>
       Raise (if isinstance_Exception e then HTTPException 500 (str e) else e)
   end, p, snd (body_result file p)).
Proof.
  intros Hct Hpre.
  destruct (fst (body_result file p)) as [d|e] eqn:Hbody.
  - eapply predict_body_Return; eassumption.
  - eapply predict_body_Raise; eassumption.
Qed.

(** A request that returns went through every stage. *)
Lemma predict_Return_inv file p d :
  outcome (predict file p) = Return d ->
  exists ct contents opened image inputs row idx label,
    content_type file = Some ct /\
    String.prefix "image/" ct = true /\
    read file = inr contents /\
    Image_open contents = inr opened /\
    Image_convert "RGB" opened = inr image /\
    Extractor_call (feature_extractor p) image = inr inputs /\
    Model_call (model p) false inputs = inr [row] /\
    argmax row = inr idx /\
    config_id2label (model p) !! idx = Some label /\
    d = [("prediction", label)].
Proof.
  destruct (content_type file) as [ct|] eqn:Hct;
    [|unfold predict, startswith; rewrite Hct; discriminate].
  destruct (String.prefix "image/" ct) eqn:Hpre.
  2:{ unfold predict, startswith, mbind, M_bind, mret, M_ret.
      rewrite Hct, Hpre. discriminate. }
  rewrite (predict_image _ _ _ Hct Hpre). unfold outcome. simpl.
  unfold body_result.
  destruct (read file) as [e|contents] eqn:Hread;
    [destruct (isinstance_Exception e); discriminate|].
  destruct (Image_open contents) as [e|opened] eqn:Hopen;
    [destruct (isinstance_Exception e); discriminate|].
  destruct (Image_convert "RGB" opened) as [e|image] eqn:Hconv;
    [destruct (isinstance_Exception e); discriminate|].
  destruct (Extractor_call (feature_extractor p) image) as [e|inputs]
    eqn:Hext;
    [destruct (isinstance_Exception e); discriminate|].
  destruct (Model_call (model p) false inputs) as [e|outputs] eqn:Hmod;
    [destruct (isinstance_Exception e); discriminate|].
  destruct (argmax_last outputs) as [e|indices] eqn:Hidx;
    [destruct (isinstance_Exception e); discriminate|].
  destruct (item indices) as [e|idx] eqn:Hitem;
    [destruct (isinstance_Exception e); discriminate|].
  destruct (getitem (config_id2label (model p)) idx) as [e|label] eqn:Hget;
    [destruct (isinstance_Exception e); discriminate|].
  simpl. intros [= <-].
  apply item_inr in Hitem. subst indices.
  apply argmax_last_single in Hidx as (row & -> & Hrow).
  apply getitem_inr in Hget.
  exists ct, contents, opened, image, inputs, row, idx, label.
  repeat split; auto.
Qed.

(** ** Import time *)

(** When both loads succeed the process starts with the application as
    configured, the loaded objects bound to the two globals, gradients
    enabled and the two messages printed. *)
Lemma startup_state p :
  startup = inr p ->
  app p = the_app /\
  ViTFeatureExtractor_from_pretrained "wambugu71/crop_leaf_diseases_vit"
    = inr (feature_extractor p) /\
  ViTForImageClassification_from_pretrained
    "wambugu1738/crop_leaf_diseases_vit" true = inr (model p) /\
  grad_enabled p = true /\
  stdout p = ["Loading model..."; "Model loaded successfully!"].
Proof.
  unfold startup.
  destruct (ViTFeatureExtractor_from_pretrained _) as [e|fe]; [discriminate|].
  destruct (ViTForImageClassification_from_pretrained _ _) as [e|m];
    [discriminate|].
  intros [= <-]. repeat split.
Qed.

(** ** The content-type guard *)

(** C1.  When the declared content type of the upload does not start with
    [image/], [predict] raises [HTTPException(400, "File provided is not an
    image")], which the framework sends as status 400 with that detail.
    The handler makes no call on the way: the file is not read and neither
    the feature extractor nor the model is invoked (the trace is empty),
    and the process state is the one it started in. *)
Theorem predict_rejects_non_image file ct p :
  content_type file = Some ct ->
  String.prefix "image/" ct = false ->
  predict file p =
    (Raise (HTTPException 400 "File provided is not an image"), p, []) /\
  respond (outcome (predict file p)) =
    Some {| status := 400;
            content := JSON [("detail", "File provided is not an image")] |}.
Proof.
  intros Hct Hpre. unfold predict, startswith.
  rewrite Hct. unfold mbind, M_bind, mret, M_ret. rewrite Hpre.
  split; reflexivity.
Qed.

(** C10.  When the upload declares no content type, [content_type] is
    [None] and the guard itself raises [AttributeError]; this happens
    before the [try] block, so nothing is read, the exception is not
    converted, and the outcome is neither the [HTTPException] with status
    400 nor one with status 500 carrying the text of the exception: the
    framework answers with its generic 500 page. *)
Theorem predict_missing_content_type file p :
  content_type file = None ->
  let e := Exc "AttributeError" true
             "'NoneType' object has no attribute 'startswith'" in
  predict file p = (Raise e, p, []) /\
  (forall status detail,
     outcome (predict file p) <> Raise (HTTPException status detail)) /\
  respond (outcome (predict file p)) =
    Some {| status := 500; content := Text "Internal Server Error" |} /\
  respond (outcome (predict file p)) <>
    Some {| status := 400;
            content := JSON [("detail", "File provided is not an image")] |} /\
  respond (outcome (predict file p)) <>
    Some {| status := 500; content := JSON [("detail", str e)] |}.
Proof.
  intros Hct e. unfold predict, startswith. rewrite Hct.
  repeat split; try reflexivity; unfold outcome; simpl; intros; discriminate.
Qed.

(** ** The error boundary *)

(** C2, amended.  For a request whose content type starts with [image/],
    an exception that derives from [Exception] and is raised while the
    file is read, the image is decoded, the input is preprocessed or the
    model is run is caught by the one [except Exception] clause and
    re-raised as [HTTPException(500, str(e))]: the response has status 500
    and its detail is exactly [str(e)], whichever stage raised. *)
Theorem predict_error_boundary file ct p stage e :
  content_type file = Some ct ->
  String.prefix "image/" ct = true ->
  raises_at file p stage e ->
  isinstance_Exception e = true ->
  outcome (predict file p) = Raise (HTTPException 500 (str e)) /\
  respond (outcome (predict file p)) =
    Some {| status := 500; content := JSON [("detail", str e)] |}.
Proof.
  intros Hct Hpre Hstage Hexc.
  apply raises_at_body in Hstage.
  rewrite (predict_body_Raise _ _ _ _ Hct Hpre Hstage), Hexc.
  split; reflexivity.
Qed.

(** An exception that does not derive from [Exception] passes through the
    [except Exception] clause unchanged. *)
Lemma predict_BaseException_escapes file ct p stage e :
  content_type file = Some ct ->
  String.prefix "image/" ct = true ->
  raises_at file p stage e ->
  isinstance_Exception e = false ->
  outcome (predict file p) = Raise e.
Proof.
  intros Hct Hpre Hstage Hexc.
  apply raises_at_body in Hstage.
  rewrite (predict_body_Raise _ _ _ _ Hct Hpre Hstage), Hexc.
  reflexivity.
Qed.

(** ** A successful request *)

(** PIL: [convert] returns an image in the mode it was asked for. *)
Hypothesis convert_returns_mode :
  forall mode im im', Image_convert mode im = inr im' -> Image_mode im' = mode.



(** C4.  Whenever [predict] returns, the dictionary it returns has the
    single entry [prediction]; its value is the entry of [id2label] at an
    index [idx] of the one row of logits computed for this upload, the
    score at [idx] is exceeded by no score of the row, and every earlier
    position has a strictly smaller score: among tied maxima the lowest
    index is the one selected. *)
Theorem predict_returns_first_argmax file p d :
  outcome (predict file p) = Return d ->
  exists contents opened image inputs row idx label,
    read file = inr contents /\
    Image_open contents = inr opened /\
    Image_convert "RGB" opened = inr image /\
    Extractor_call (feature_extractor p) image = inr inputs /\
    Model_call (model p) false inputs = inr [row] /\
    first_max row idx /\
    config_id2label (model p) !! idx = Some label /\
    d = [("prediction", label)].
Proof.
  intros Hret.
  apply predict_Return_inv in Hret
    as (ct & contents & opened & image & inputs & row & idx & label
        & _ & _ & Hread & Hopen & Hconv & Hext & Hmod & Harg & Hlabel & Hd).
  exists contents, opened, image, inputs, row, idx, label.
  repeat split; try assumption.
  apply argmax_first_max. exact Harg.
Qed.

(** ** Requests do not interfere *)

Lemma serve_id files p : serve files p = p.
Proof.
  induction files as [|file files IH]; simpl; [reflexivity|].
  rewrite predict_final. exact IH.
Qed.

Lemma body_result_read f1 f2 p :
  read f1 = read f2 -> body_result f1 p = body_result f2 p.
Proof. intros Heq. unfold body_result. rewrite Heq. reflexivity. Qed.

(** Two uploads with the same bytes, the second handled in the state the
    first one left or after any number of other requests in between: when
    both are declared as images they get the same outcome, and whenever
    both get a prediction it is the same label.  The library calls being
    functions of their arguments here, this records only that the handler
    adds no dependence of its own. *)
Theorem predict_same_bytes_same_label f1 f2 others p :
  read f1 = read f2 ->
  let first := outcome (predict f1 p) in
  let second := outcome (predict f2 (serve others (final (predict f1 p)))) in
  (forall c1 c2,
     content_type f1 = Some c1 -> String.prefix "image/" c1 = true ->
     content_type f2 = Some c2 -> String.prefix "image/" c2 = true ->
     second = first) /\
  (forall d1 d2, first = Return d1 -> second = Return d2 -> d1 = d2).
Proof.
  intros Hread first second. subst first second.
  rewrite serve_id, predict_final.
  assert (Hsame : forall c1 c2,
             content_type f1 = Some c1 -> String.prefix "image/" c1 = true ->
             content_type f2 = Some c2 -> String.prefix "image/" c2 = true ->
             outcome (predict f2 p) = outcome (predict f1 p)).
  { intros c1 c2 H1 Hp1 H2 Hp2.
    rewrite (predict_image _ _ _ H1 Hp1), (predict_image _ _ _ H2 Hp2).
    rewrite (body_result_read _ _ _ Hread). reflexivity. }
  split; [exact Hsame|].
  intros d1 d2 Hd1 Hd2.
  destruct (predict_Return_inv _ _ _ Hd1) as (c1 & ? & ? & ? & ? & ? & ? & ?
                                               & H1 & Hp1 & _).
  destruct (predict_Return_inv _ _ _ Hd2) as (c2 & ? & ? & ? & ? & ? & ? & ?
                                               & H2 & Hp2 & _).
  rewrite (Hsame c1 c2 H1 Hp1 H2 Hp2), Hd1 in Hd2.
  injection Hd2 as <-. reflexivity.
Qed.

(** C8.  Handling an upload leaves the process state as it found it: the
    application object, the loaded feature extractor and model, the
    gradient mode and the printed output are the same after [predict] as
    before, whether it returned or raised; hence they are the same after
    any sequence of requests. *)
Theorem predict_mutates_nothing file files p :
  final (predict file p) = p /\ serve files p = p.
Proof. split; [apply predict_final | apply serve_id]. Qed.

(** ** Undecodable uploads *)



(** ** The root endpoint and the CORS policy *)

(** C7.  [GET /] is routed to [root], which takes no argument, makes no
    call and does not depend on the process state: in every state it
    returns [{"message": "Crop Disease Detection API is running!"}], sent
    with status 200, and leaves the state as it is. *)
Theorem root_running p :
  In ("GET", "/", "root") (routes the_app) /\
  root p =
    (Return [("message", "Crop Disease Detection API is running!")], p, []) /\
  respond (outcome (root p)) =
    Some {| status := 200;
            content :=
              JSON [("message", "Crop Disease Detection API is running!")] |}.
Proof. repeat split. simpl. auto. Qed.

End Properties.

(** C9, amended.  The application has one middleware, the CORS middleware,
    and its configuration allows exactly the origin
    [http://localhost:3000]; for it credentials are allowed, every header
    is allowed, and the methods allowed are exactly [DELETE], [GET],
    [HEAD], [OPTIONS], [PATCH], [POST] and [PUT], which the middleware
    puts in place of the ["*"] entry. *)
Theorem cors_policy :
  user_middleware the_app = [cors] /\
  (forall origin,
     origin_allowed cors origin = true <-> origin = "http://localhost:3000") /\
  allow_credentials cors = true /\
  (forall method,
     method_allowed cors method = true <-> In method ALL_METHODS) /\
  (forall header, header_allowed cors header = true).
Proof.
  split; [reflexivity|]. split; [|split; [reflexivity|split; [|reflexivity]]].
  - intros origin. unfold origin_allowed, listed. simpl.
    rewrite orb_false_r. apply String.eqb_eq.
  - intros method.
    change (method_allowed cors method)
      with (existsb (String.eqb method) ALL_METHODS).
    rewrite existsb_exists. split.
    + intros (m & Hin & Heq). apply String.eqb_eq in Heq. subst m. exact Hin.
    + intros Hin. exists method. split; [exact Hin | apply String.eqb_refl].
Qed.

(** C9 as stated fails: [TRACE] and [CONNECT] are HTTP methods, and so is
    [POST] however it is spelled, but a preflight request for [TRACE],
    [CONNECT] or [post] is refused, while one for [POST] is accepted. *)
Lemma cors_refuses_TRACE :
  allow_methods cors = ["*"] /\
  method_allowed cors "TRACE" = false /\
  method_allowed cors "CONNECT" = false /\
  method_allowed cors "post" = false /\
  method_allowed cors "POST" = true.
Proof. repeat split. Qed.

(** ** Instances of the statements above *)

Lemma predict_rejects_non_image_witness :
  let file := Demo.upload (Some "application/pdf") Demo.leaf in
  String.prefix "image/" "application/pdf" = false /\
  predict file Demo.process =
    (Raise (HTTPException 400 "File provided is not an image"),
     Demo.process, []).
Proof.
  intros file. split; [reflexivity|].
  apply (predict_rejects_non_image file "application/pdf" Demo.process);
    reflexivity.
Defined.

Lemma predict_missing_content_type_witness :
  outcome (predict (Demo.upload None Demo.leaf) Demo.process) =
  Raise (Exc "AttributeError" true
           "'NoneType' object has no attribute 'startswith'").
Proof.
  pose proof (predict_missing_content_type
                (Demo.upload None Demo.leaf) Demo.process eq_refl) as H.
  simpl in H. destruct H as [H _]. rewrite H. reflexivity.
Defined.

(** An upload declared as an image whose payload is empty: the decoder of
    the small instance refuses it. *)
Lemma predict_error_boundary_witness :
  let file := Demo.upload (Some "image/png") [] in
  let e := Exc "UnidentifiedImageError" true "cannot identify image file" in
  raises_at file Demo.process Decoding e /\
  respond (outcome (predict file Demo.process)) =
    Some {| status := 500;
            content := JSON [("detail", "cannot identify image file")] |}.
Proof.
  intros file e.
  assert (Hstage : raises_at file Demo.process Decoding e)
    by (apply raises_open with (contents := []); reflexivity).
  split; [exact Hstage|].
  apply (predict_error_boundary file "image/png" Demo.process Decoding e);
    [reflexivity | reflexivity | exact Hstage | reflexivity].
Defined.

(** C2 as stated fails: the request task is cancelled while it awaits
    [file.read()].  [asyncio.CancelledError] derives from [BaseException]
    only, so [except Exception] does not catch it; it leaves the handler
    as it is and no 500 response with its text is produced. *)
Lemma predict_cancelled_read_escapes :
  let e := Exc "CancelledError" false "" in
  let file := {| content_type := Some "image/png"; read := inl e |} in
  String.prefix "image/" "image/png" = true /\
  raises_at file Demo.process Reading e /\
  outcome (predict file Demo.process) = Raise e /\
  outcome (predict file Demo.process) <> Raise (HTTPException 500 (str e)) /\
  respond (outcome (predict file Demo.process)) = None.
Proof.
  intros e file.
  split; [reflexivity|].
  split; [apply raises_read; reflexivity|].
  split; [reflexivity|].
  split; [discriminate | reflexivity].
Qed.

Lemma Zleb_total (x y : Z) : Z.leb x y = true \/ Z.leb y x = true.
Proof. rewrite !Z.leb_le. lia. Qed.

Lemma Zleb_trans (x y z : Z) :
  Z.leb x y = true -> Z.leb y z = true -> Z.leb x z = true.
Proof. rewrite !Z.leb_le. lia. Qed.

Lemma demo_convert_returns_mode :
  forall mode im im',
    Image_convert (Libs := Demo.libs) mode im = inr im' ->
    Image_mode im' = mode.
Proof. intros mode im im' [= <-]. reflexivity. Qed.



Lemma predict_returns_first_argmax_witness :
  exists row idx,
    Model_call (Libs := Demo.libs) tt false [Byte.x02; Byte.x07; Byte.x07] =
      inr [row] /\
    first_max row idx /\
    Demo.labels !! idx = Some "Potato___Early_Blight".
Proof.
  destruct (predict_returns_first_argmax (L := Demo.libs)
              Zleb_total Zleb_trans
              (Demo.upload (Some "image/png") Demo.leaf) Demo.process
              [("prediction", "Potato___Early_Blight")] eq_refl)
    as (contents & opened & image & inputs & row & idx & label
        & Hread & Hopen & Hconv & Hext & Hmod & Hmax & Hlabel & Hd).
  injection Hread as <-. injection Hopen as <-. injection Hconv as <-.
  injection Hext as <-. injection Hd as <-.
  exists row, idx. auto.
Defined.

(** The same bytes declared once as PNG and once as JPEG, with a refused
    upload handled in between. *)
Lemma predict_same_bytes_same_label_witness :
  outcome (predict (Demo.upload (Some "image/jpeg") Demo.leaf)
             (serve [Demo.upload (Some "text/plain") []]
                (final (predict (Demo.upload (Some "image/png") Demo.leaf)
                          Demo.process)))) =
  Return [("prediction", "Potato___Early_Blight")].
Proof.
  destruct (predict_same_bytes_same_label (L := Demo.libs)
              (Demo.upload (Some "image/png") Demo.leaf)
              (Demo.upload (Some "image/jpeg") Demo.leaf)
              [Demo.upload (Some "text/plain") []] Demo.process eq_refl)
    as [Hsame _].
  rewrite (Hsame "image/png" "image/jpeg" eq_refl eq_refl eq_refl eq_refl).
  reflexivity.
Defined.



(** * Further properties of the handler *)

Section Handler.
Context {L : Libs}.
Local Open Scope list_scope.

(** ** Every way a request can end *)

(** The three ways through the guard. *)
Lemma predict_cases file p :
  (content_type file = None /\
   predict file p =
     (Raise (Exc "AttributeError" true
               "'NoneType' object has no attribute 'startswith'"), p, [])) \/
  (exists ct, content_type file = Some ct /\
     String.prefix "image/" ct = false /\
     predict file p =
       (Raise (HTTPException 400 "File provided is not an image"), p, [])) \/
  (exists ct, content_type file = Some ct /\
     String.prefix "image/" ct = true /\
     predict file p =
       (match fst (body_result file p) with
        | Return d => Return d
        | Raise e =>
            Raise (if isinstance_Exception e
                   then HTTPException 500 (str e) else e)
        end, p, snd (body_result file p))).
Proof.
  destruct (content_type file) as [ct|] eqn:Hct.
  - destruct (String.prefix "image/" ct) eqn:Hpre.
    + right. right. exists ct. repeat split; auto.
      apply (predict_image file ct p); [exact Hct | exact Hpre].
    + right. left. exists ct. repeat split; auto.
      unfold predict, startswith. rewrite Hct.
      unfold mbind, M_bind, mret, M_ret. rewrite Hpre. reflexivity.
  - left. split; [reflexivity|].
    unfold predict, startswith. rewrite Hct. reflexivity.
Qed.

Lemma not_Exception_no_response (e : PyExc) :
  isinstance_Exception e = false -> respond (Raise e) = None.
Proof. destruct e as [s d|cls [|] msg]; simpl; congruence. Qed.

(** X1.  Whatever the upload and whatever the libraries answer, a response
    of [POST /predict] is one of four: status 200 with the single entry
    [prediction], whose value is an entry of [id2label]; status 400 with
    the fixed detail; status 500 with a detail; or the generic 500 page.
    No other status and no other body is ever sent. *)
Theorem predict_response_shape file p r :
  respond (outcome (predict file p)) = Some r ->
  (exists idx label,
     config_id2label (model p) !! idx = Some label /\
     r = {| status := 200; content := JSON [("prediction", label)] |}) \/
  r = {| status := 400;
         content := JSON [("detail", "File provided is not an image")] |} \/
  (exists detail,
     r = {| status := 500; content := JSON [("detail", detail)] |}) \/
  r = {| status := 500; content := Text "Internal Server Error" |}.
Proof.
  intros Hr.
  destruct (predict_cases file p)
    as [[_ Hp] | [(ct & _ & _ & Hp) | (ct & Hct & Hpre & Hp)]].
  - rewrite Hp in Hr. injection Hr as <-. auto.
  - rewrite Hp in Hr. injection Hr as <-. auto.
  - destruct (fst (body_result file p)) as [d|e] eqn:Hbody.
    + assert (Hout : outcome (predict file p) = Return d)
        by (rewrite Hp; reflexivity).
      rewrite Hout in Hr. injection Hr as <-.
      apply predict_Return_inv in Hout
        as (_ & _ & _ & _ & _ & _ & idx & label
            & _ & _ & _ & _ & _ & _ & _ & _ & Hlabel & ->).
      left. exists idx, label. auto.
    + rewrite Hp in Hr. unfold outcome in Hr. cbn [fst] in Hr.
      destruct (isinstance_Exception e) eqn:Hexc.
      * injection Hr as <-. right. right. left. eauto.
      * rewrite (not_Exception_no_response _ Hexc) in Hr. discriminate.
Qed.

(** X2.  Status 400 is sent exactly when the upload declares a content
    type that does not start with [image/]; nothing that happens inside
    the [try] block ends in a 400. *)
Theorem predict_400_iff file p :
  (exists c, respond (outcome (predict file p)) =
             Some {| status := 400; content := c |}) <->
  (exists ct, content_type file = Some ct /\
              String.prefix "image/" ct = false).
Proof.
  destruct (predict_cases file p)
    as [[Hct Hp] | [(ct & Hct & Hpre & Hp) | (ct & Hct & Hpre & Hp)]];
    rewrite Hp; unfold outcome; cbn [fst].
  - split; [intros [c [=]] | intros (ct & Hct' & _); congruence].
  - split; [eauto | intros _; eauto].
  - split; [|intros (ct' & Hct' & Hpre'); congruence].
    intros [c Hc].
    destruct (fst (body_result file p)) as [d|e]; [discriminate|].
    destruct (isinstance_Exception e) eqn:Hexc; [discriminate|].
    rewrite (not_Exception_no_response _ Hexc) in Hc. discriminate.
Qed.

(** X3.  The generic [Internal Server Error] page is sent exactly when the
    upload declares no content type: every failure behind the guard is
    answered with a JSON detail or not at all. *)
Theorem predict_generic_500_iff file p :
  respond (outcome (predict file p)) =
    Some {| status := 500; content := Text "Internal Server Error" |} <->
  content_type file = None.
Proof.
  destruct (predict_cases file p)
    as [[Hct Hp] | [(ct & Hct & Hpre & Hp) | (ct & Hct & Hpre & Hp)]];
    rewrite Hp, Hct; unfold outcome; cbn [fst].
  - split; auto.
  - split; discriminate.
  - split; [|discriminate]. intros Hr.
    destruct (fst (body_result file p)) as [d|e]; [discriminate|].
    destruct (isinstance_Exception e) eqn:Hexc; [discriminate|].
    rewrite (not_Exception_no_response _ Hexc) in Hr. discriminate.
Qed.

(** X4.  [predict] returns the label [label] exactly when the content type
    starts with [image/], the read, the two decoding steps, the feature
    extractor and the model (run with gradients off) all return normally,
    the logits are a single row, and [label] is the entry of [id2label] at
    the argmax of that row. *)
Theorem predict_returns_iff file p label :
  outcome (predict file p) = Return [("prediction", label)] <->
  exists ct contents opened image inputs row idx,
    content_type file = Some ct /\
    String.prefix "image/" ct = true /\
    read file = inr contents /\
    Image_open contents = inr opened /\
    Image_convert "RGB" opened = inr image /\
    Extractor_call (feature_extractor p) image = inr inputs /\
    Model_call (model p) false inputs = inr [row] /\
    argmax row = inr idx /\
    config_id2label (model p) !! idx = Some label.
Proof.
  split.
  - intros Hout. apply predict_Return_inv in Hout
      as (ct & contents & opened & image & inputs & row & idx & label'
          & Hct & Hpre & Hread & Hopen & Hconv & Hext & Hmod & Harg
          & Hlabel & [= <-]).
    exists ct, contents, opened, image, inputs, row, idx. repeat split; auto.
  - intros (ct & contents & opened & image & inputs & row & idx
            & Hct & Hpre & Hread & Hopen & Hconv & Hext & Hmod & Harg
            & Hlabel).
    rewrite (predict_image _ _ _ Hct Hpre). unfold outcome. simpl.
    unfold body_result. rewrite Hread, Hopen, Hconv, Hext, Hmod. simpl.
    rewrite Harg. simpl. unfold getitem. rewrite Hlabel. reflexivity.
Qed.

(** ** Failures after the forward pass *)

Lemma argmax_inl row e : argmax row = inl e -> row = [].
Proof. destruct row; [reflexivity | discriminate]. Qed.

Lemma argmax_last_inl logits e :
  argmax_last logits = inl e -> isinstance_Exception e = true /\ In [] logits.
Proof.
  induction logits as [|row rest IH]; simpl; [discriminate|].
  destruct (argmax row) as [e'|i] eqn:Hrow.
  - intros [= <-]. apply argmax_inl in Hrow as Hnil. subst row.
    simpl in Hrow. injection Hrow as <-. auto.
  - destruct (argmax_last rest) as [e'|idxs]; [|discriminate].
    intros [= <-]. destruct (IH eq_refl). auto.
Qed.

Lemma item_inl indices e : item indices = inl e -> isinstance_Exception e = true.
Proof.
  destruct indices as [|i [|j rest]]; simpl; try discriminate;
    intros [= <-]; reflexivity.
Qed.

(** X5.  When the index selected by argmax has no entry in [id2label], the
    lookup raises [KeyError] inside the [try] block and the request is
    answered with status 500; the detail is the index in decimal, the text
    of the [KeyError]. *)
Theorem predict_unknown_class file ct p contents opened image inputs row idx :
  content_type file = Some ct ->
  String.prefix "image/" ct = true ->
  read file = inr contents ->
  Image_open contents = inr opened ->
  Image_convert "RGB" opened = inr image ->
  Extractor_call (feature_extractor p) image = inr inputs ->
  Model_call (model p) false inputs = inr [row] ->
  argmax row = inr idx ->
  config_id2label (model p) !! idx = None ->
  respond (outcome (predict file p)) =
    Some {| status := 500; content := JSON [("detail", pretty idx)] |}.
Proof.
  intros Hct Hpre Hread Hopen Hconv Hext Hmod Harg Hnone.
  rewrite (predict_image _ _ _ Hct Hpre). unfold outcome. cbn [fst].
  unfold body_result. rewrite Hread, Hopen, Hconv, Hext, Hmod. simpl.
  rewrite Harg. simpl. unfold getitem. rewrite Hnone. reflexivity.
Qed.

(** X6.  When the logits the model answers are not exactly one non-empty
    row (an empty batch, an empty row, or more than one row), the
    reduction or [item] raises inside the [try] block: the request is
    answered with status 500 and a detail, never with a prediction. *)
Theorem predict_bad_logits file ct p contents opened image inputs outputs :
  content_type file = Some ct ->
  String.prefix "image/" ct = true ->
  read file = inr contents ->
  Image_open contents = inr opened ->
  Image_convert "RGB" opened = inr image ->
  Extractor_call (feature_extractor p) image = inr inputs ->
  Model_call (model p) false inputs = inr outputs ->
  (forall row, outputs = [row] -> row = []) ->
  exists detail,
    respond (outcome (predict file p)) =
      Some {| status := 500; content := JSON [("detail", detail)] |}.
Proof.
  intros Hct Hpre Hread Hopen Hconv Hext Hmod Hshape.
  rewrite (predict_image _ _ _ Hct Hpre). unfold outcome. cbn [fst].
  unfold body_result. rewrite Hread, Hopen, Hconv, Hext, Hmod. cbn [fst].
  destruct (argmax_last outputs) as [e|indices] eqn:Hidx.
  - apply argmax_last_inl in Hidx as [Hexc _]. cbn [fst]. rewrite Hexc.
    eexists. reflexivity.
  - destruct (item indices) as [e|idx] eqn:Hitem.
    + apply item_inl in Hitem as Hexc. cbn [fst]. rewrite Hexc.
      eexists. reflexivity.
    + apply item_inr in Hitem. subst indices.
      apply argmax_last_single in Hidx as (row & -> & Hrow).
      rewrite (Hshape row eq_refl) in Hrow. discriminate.
Qed.

(** ** Exceptions outside [Exception] *)

(** X7.  An exception that does not derive from [Exception], raised at any
    of the four stages of a request declared as an image, leaves [predict]
    as it was raised: it is not wrapped in an [HTTPException], no response
    is built from it, and the process state, gradient mode included, is
    the one before the request. *)
Theorem predict_passes_BaseException file ct p stage e :
  content_type file = Some ct ->
  String.prefix "image/" ct = true ->
  raises_at file p stage e ->
  isinstance_Exception e = false ->
  outcome (predict file p) = Raise e /\
  final (predict file p) = p /\
  respond (outcome (predict file p)) = None.
Proof.
  intros Hct Hpre Hstage Hexc.
  apply raises_at_body in Hstage.
  rewrite (predict_body_Raise _ _ _ _ Hct Hpre Hstage), Hexc.
  unfold outcome, final. cbn [fst snd].
  repeat split. apply not_Exception_no_response. exact Hexc.
Qed.

(** ** The calls a request makes *)

Lemma predict_rejects_non_image_state file ct p :
  content_type file = Some ct ->
  String.prefix "image/" ct = false ->
  final (predict file p) = p /\ trace (predict file p) = [].
Proof.
  intros Hct Hpre. unfold predict, startswith. rewrite Hct.
  unfold mbind, M_bind, mret, M_ret. rewrite Hpre. split; reflexivity.
Qed.

Lemma predict_trace file p :
  trace (predict file p) = [] \/
  trace (predict file p) = snd (body_result file p).
Proof.
  destruct (predict_cases file p)
    as [[_ Hp] | [(ct & _ & _ & Hp) | (ct & _ & _ & Hp)]];
    rewrite Hp; auto.
Qed.

(** Case analysis along the [try] block. *)
Ltac walk_body file p :=
  unfold body_result;
  destruct (read file) as [?e|?contents]; cbn [fst snd];
  [|destruct (Image_open _) as [?e|?opened] eqn:?Hopen; cbn [fst snd];
    [|destruct (Image_convert "RGB" _) as [?e|?image] eqn:?Hconv;
      cbn [fst snd];
      [|destruct (Extractor_call (feature_extractor p) _)
          as [?e|?inputs] eqn:?Hext; cbn [fst snd];
        [|destruct (Model_call (model p) false _)
            as [?e|?outputs] eqn:?Hmod; cbn [fst snd];
          [|destruct (argmax_last _) as [?e|?indices]; cbn [fst snd];
            [|destruct (item _) as [?e|?idx]; cbn [fst snd];
              [|destruct (getitem _ _) as [?e|?label];
                cbn [fst snd]]]]]]]].

(** X8.  A request calls the model only inside [with torch.no_grad()]:
    every model call it makes is on the model bound at import time and
    runs with gradients off, whatever the gradient mode of the process. *)
Theorem predict_model_calls file p m grad inputs :
  In (EvModel m grad inputs) (trace (predict file p)) ->
  m = model p /\ grad = false.
Proof.
  destruct (predict_trace file p) as [-> | ->]; [intros []|].
  walk_body file p; simpl; intros Hin;
    repeat (destruct Hin as [Hin | Hin]; try discriminate Hin);
    try contradiction; injection Hin as <- <- <-; auto.
Qed.

(** X9.  The library calls of a request are made in the order read, open,
    convert, extract, infer, each at most once, and stop at the first that
    raises.  A request refused by the guard, or without a content type,
    makes none; one that passes the guard makes exactly the calls up to
    and including the first that raises; once the feature extractor has
    returned, all five have been made, whatever happens after. *)
Theorem predict_call_order file p :
  let t := trace (predict file p) in
  let fe := feature_extractor p in
  (content_type file = None -> t = []) /\
  (forall ct, content_type file = Some ct ->
     String.prefix "image/" ct = false -> t = []) /\
  (forall ct, content_type file = Some ct ->
     String.prefix "image/" ct = true ->
     (forall e, read file = inl e -> t = [EvRead]) /\
     (forall contents e,
        read file = inr contents -> Image_open contents = inl e ->
        t = [EvRead; EvImageOpen contents]) /\
     (forall contents opened e,
        read file = inr contents -> Image_open contents = inr opened ->
        Image_convert "RGB" opened = inl e ->
        t = [EvRead; EvImageOpen contents; EvConvert "RGB" opened]) /\
     (forall contents opened image e,
        read file = inr contents -> Image_open contents = inr opened ->
        Image_convert "RGB" opened = inr image ->
        Extractor_call fe image = inl e ->
        t = [EvRead; EvImageOpen contents; EvConvert "RGB" opened;
             EvExtractor fe image]) /\
     (forall contents opened image inputs,
        read file = inr contents -> Image_open contents = inr opened ->
        Image_convert "RGB" opened = inr image ->
        Extractor_call fe image = inr inputs ->
        t = [EvRead; EvImageOpen contents; EvConvert "RGB" opened;
             EvExtractor fe image; EvModel (model p) false inputs])) /\
  exists n, map kind_of t = take n call_order.
Proof.
  intros t fe. subst t fe.
  split; [|split; [|split]];
    [| | intros ct H H0; repeat split |].
  - intros Hct. unfold predict, startswith. rewrite Hct. reflexivity.
  - intros ct Hct Hpre.
    destruct (predict_rejects_non_image_state file ct p Hct Hpre) as [_ Ht].
    exact Ht.
  - intros e Hread. rewrite (predict_image _ _ _ H H0). unfold trace.
    cbn [snd]. unfold body_result. rewrite Hread. reflexivity.
  - intros contents e Hread Hopen. rewrite (predict_image _ _ _ H H0).
    unfold trace. cbn [snd]. unfold body_result. rewrite Hread, Hopen.
    reflexivity.
  - intros contents opened e Hread Hopen Hconv.
    rewrite (predict_image _ _ _ H H0). unfold trace. cbn [snd].
    unfold body_result. rewrite Hread, Hopen, Hconv. reflexivity.
  - intros contents opened image e Hread Hopen Hconv Hext.
    rewrite (predict_image _ _ _ H H0). unfold trace. cbn [snd].
    unfold body_result. rewrite Hread, Hopen, Hconv, Hext. reflexivity.
  - intros contents opened image inputs Hread Hopen Hconv Hext.
    rewrite (predict_image _ _ _ H H0). unfold trace. cbn [snd].
    unfold body_result. rewrite Hread, Hopen, Hconv, Hext. cbn [snd].
    destruct (Model_call (model p) false inputs) as [e|outputs];
      [reflexivity|].
    destruct (argmax_last outputs) as [e|indices]; [reflexivity|].
    destruct (item indices) as [e|idx]; [reflexivity|].
    destruct (getitem (config_id2label (model p)) idx); reflexivity.
  - destruct (predict_trace file p) as [-> | ->]; [exists 0; reflexivity|].
    walk_body file p;
      first [ exists 1; reflexivity | exists 2; reflexivity
            | exists 3; reflexivity | exists 4; reflexivity
            | exists 5; reflexivity ].
Qed.

(** X10.  The outcome of a request and the calls it makes depend on the
    process only through the two objects loaded at import time: the
    gradient mode the process is in, the printed output and the
    application object do not matter. *)
Theorem predict_reads_loaded_objects file p q :
  feature_extractor p = feature_extractor q ->
  model p = model q ->
  outcome (predict file p) = outcome (predict file q) /\
  trace (predict file p) = trace (predict file q).
Proof.
  intros Hfe Hm.
  assert (Hbody : body_result file p = body_result file q)
    by (unfold body_result; rewrite Hfe, Hm; reflexivity).
  destruct (predict_cases file p)
    as [[Hct Hp] | [(ct & Hct & Hpre & Hp) | (ct & Hct & Hpre & Hp)]];
    destruct (predict_cases file q)
    as [[Hct' Hq] | [(ct' & Hct' & Hpre' & Hq) | (ct' & Hct' & Hpre' & Hq)]];
    try congruence; rewrite Hp, Hq; unfold outcome, trace; cbn [fst snd];
    rewrite ?Hbody; auto.
Qed.

(** X11.  In a sequence of uploads handled one after the other, each gets
    the outcome it would get if it were handled alone in the initial
    state: no request is affected by the ones before it. *)
Theorem serve_outcomes_independent files p :
  serve_outcomes files p = map (fun file => outcome (predict file p)) files.
Proof.
  induction files as [|file files IH]; simpl; [reflexivity|].
  rewrite predict_final, IH. reflexivity.
Qed.

(** ** From import to requests *)

(** X17.  Once the module has been executed with both loads succeeding,
    then after any sequence of uploads the two globals are still bound to
    the objects the loads returned, the application is as configured,
    gradients are enabled and the output holds the two start-up messages
    and nothing else: requests print nothing and rebind nothing. *)
Theorem loaded_objects_survive p0 files :
  startup = inr p0 ->
  let p := serve files p0 in
  ViTFeatureExtractor_from_pretrained "wambugu71/crop_leaf_diseases_vit"
    = inr (feature_extractor p) /\
  ViTForImageClassification_from_pretrained
    "wambugu1738/crop_leaf_diseases_vit" true = inr (model p) /\
  app p = the_app /\
  grad_enabled p = true /\
  stdout p = ["Loading model..."; "Model loaded successfully!"].
Proof.
  intros Hstart p. subst p. rewrite serve_id.
  destruct (startup_state p0 Hstart) as (Happ & Hfe & Hm & Hgrad & Hout).
  repeat split; assumption.
Qed.

(** PIL: [convert] returns an image in the mode it was asked for. *)
Hypothesis convert_returns_mode :
  forall mode im im', Image_convert mode im = inr im' -> Image_mode im' = mode.

(** X12.  Every call a request makes to the feature extractor is on the
    extractor bound at import time and hands it an image in mode ["RGB"],
    whether the request goes on to succeed or fails later. *)
Theorem predict_extractor_calls file p fe im :
  In (EvExtractor fe im) (trace (predict file p)) ->
  fe = feature_extractor p /\ Image_mode im = "RGB".
Proof.
  destruct (predict_trace file p) as [-> | ->]; [intros []|].
  walk_body file p; simpl; intros Hin;
    repeat (destruct Hin as [Hin | Hin]; try discriminate Hin);
    try contradiction; injection Hin as <- <-;
    (split; [reflexivity | eapply convert_returns_mode; eassumption]).
Qed.

(** ** The reduction over the logits *)

(** X13.  [argmax(-1)] answers with one index for each row of the batch,
    and each index is a position of its row. *)
Theorem argmax_last_in_bounds logits indices :
  argmax_last logits = inr indices ->
  Forall2 (fun row i => i < length row) logits indices.
Proof.
  revert indices.
  induction logits as [|row rest IH]; simpl; intros indices.
  - intros [= <-]. constructor.
  - destruct (argmax row) as [e|i] eqn:Hrow; [discriminate|].
    destruct (argmax_last rest) as [e|idxs]; [discriminate|].
    intros [= <-]. constructor; [|apply IH; reflexivity].
    destruct row as [|x row']; [discriminate|].
    simpl in Hrow. injection Hrow as <-.
    pose proof (argmax_from_lt 0 x 1 row'). simpl. lia.
Qed.

(** X14.  On a batch that has at least one row, [argmax(-1)] raises
    exactly when some row of the batch is empty. *)
Theorem argmax_last_raises_iff logits :
  logits <> [] ->
  (exists e, argmax_last logits = inl e) <-> In [] logits.
Proof.
  intros _. split.
  - intros [e He]. apply argmax_last_inl in He as [_ Hin]. exact Hin.
  - induction logits as [|row rest IH]; simpl; [intros []|].
    intros [-> | Hin]; [simpl; eauto|].
    destruct (argmax row) as [e|i]; [eauto|].
    destruct (IH Hin) as [e ->]. eauto.
Qed.

Hypothesis score_le_total :
  forall x y : Score, score_le x y = true \/ score_le y x = true.
Hypothesis score_le_trans :
  forall x y z : Score,
    score_le x y = true -> score_le y z = true -> score_le x z = true.

(** A row has at most one first maximum. *)
Lemma first_max_unique row i j : first_max row i -> first_max row j -> i = j.
Proof.
  intros (bi & Hi & Hmaxi & Hfirsti) (bj & Hj & Hmaxj & Hfirstj).
  destruct (Nat.lt_trichotomy i j) as [Hlt | [Heq | Hlt]]; [|exact Heq|].
  - pose proof (Hfirstj i bi Hlt Hi) as Hf.
    rewrite (Hmaxi j bj Hj) in Hf. discriminate.
  - pose proof (Hfirsti j bj Hlt Hj) as Hf.
    rewrite (Hmaxj i bi Hi) in Hf. discriminate.
Qed.

Lemma first_max_argmax row i : first_max row i -> argmax row = inr i.
Proof.
  intros Hi. destruct (argmax row) as [e|j] eqn:Hrow.
  - apply argmax_inl in Hrow. subst row.
    destruct Hi as (b & Hb & _). discriminate.
  - apply (argmax_first_max score_le_total score_le_trans) in Hrow.
    rewrite (first_max_unique row i j Hi Hrow). reflexivity.
Qed.

(** X15.  [argmax] answers [i] exactly when [i] is the first maximum of
    the row: no score of the row exceeds the score at [i] and every
    earlier score is strictly smaller.  So the answer is the same for any
    two rows that compare alike, and ties always go to the lowest index. *)
Theorem argmax_iff_first_max row i :
  argmax row = inr i <-> first_max row i.
Proof.
  split.
  - apply (argmax_first_max score_le_total score_le_trans).
  - apply first_max_argmax.
Qed.

(** X16.  Scores that do not exceed the current maximum, appended to a
    non-empty row, do not change its argmax: a later tie never displaces
    the index already selected. *)
Theorem argmax_app_le row tail i best :
  argmax row = inr i ->
  row !! i = Some best ->
  Forall (fun x => score_le x best = true) tail ->
  argmax (row ++ tail) = inr i.
Proof.
  intros Harg Hbest Htail.
  apply first_max_argmax.
  apply (argmax_first_max score_le_total score_le_trans) in Harg.
  destruct Harg as (b & Hb & Hmax & Hfirst).
  assert (b = best) by congruence. subst b.
  exists best. repeat split.
  - apply lookup_app_l_Some. exact Hb.
  - intros j x Hj. apply lookup_app_Some in Hj as [Hj | [_ Hj]]; [eauto|].
    rewrite Forall_forall in Htail. apply Htail.
    eapply list_elem_of_lookup_2. exact Hj.
  - intros j x Hlt Hj. apply lookup_app_Some in Hj as [Hj | [Hge _]];
      [eauto|]. apply lookup_lt_Some in Hb. lia.
Qed.

End Handler.

(** ** Instances of the further properties *)

Lemma predict_response_shape_witness :
  let file := Demo.upload (Some "image/png") Demo.leaf in
  let r := {| status := 200;
              content := JSON [("prediction", "Potato___Early_Blight")] |} in
  (exists idx label,
     config_id2label (model Demo.process) !! idx = Some label /\
     r = {| status := 200; content := JSON [("prediction", label)] |}) \/
  r = {| status := 400;
         content := JSON [("detail", "File provided is not an image")] |} \/
  (exists detail,
     r = {| status := 500; content := JSON [("detail", detail)] |}) \/
  r = {| status := 500; content := Text "Internal Server Error" |}.
Proof.
  intros file r.
  apply (predict_response_shape file Demo.process r). reflexivity.
Defined.

(** A table with the first class only, and an upload whose maximum is at
    the second. *)
Lemma predict_unknown_class_witness :
  let table : gmap nat string := {[ 0 := "Corn___Common_Rust" ]} in
  respond (outcome (predict
                      (Demo.upload (Some "image/png")
                         [Byte.x01; Byte.x02; Byte.x07])
                      (Variant.process table Variant.one_row))) =
  Some {| status := 500; content := JSON [("detail", "1")] |}.
Proof.
  intros table.
  apply (predict_unknown_class (L := Variant.libs table Variant.one_row)
           (Demo.upload (Some "image/png") [Byte.x01; Byte.x02; Byte.x07])
           "image/png" (Variant.process table Variant.one_row)
           [Byte.x01; Byte.x02; Byte.x07]
           ("L", [Byte.x02; Byte.x07]) ("RGB", [Byte.x02; Byte.x07])
           [Byte.x02; Byte.x07] [2; 7]%Z 1);
    reflexivity.
Defined.

Lemma predict_bad_logits_witness :
  exists detail,
    respond (outcome (predict (Demo.upload (Some "image/png") Demo.leaf)
                        (Variant.process Demo.labels Variant.two_rows))) =
    Some {| status := 500; content := JSON [("detail", detail)] |}.
Proof.
  apply (predict_bad_logits (L := Variant.libs Demo.labels Variant.two_rows)
           (Demo.upload (Some "image/png") Demo.leaf)
           "image/png" (Variant.process Demo.labels Variant.two_rows)
           Demo.leaf
           ("L", [Byte.x02; Byte.x07; Byte.x07])
           ("RGB", [Byte.x02; Byte.x07; Byte.x07])
           [Byte.x02; Byte.x07; Byte.x07]
           [[2; 7; 7]; [2; 7; 7]]%Z);
    try reflexivity.
  intros row Hrow. discriminate Hrow.
Defined.

(** The interpreter is interrupted while the upload is read. *)
Lemma predict_passes_BaseException_witness :
  let e := Exc "KeyboardInterrupt" false "" in
  let file := {| content_type := Some "image/jpeg"; read := inl e |} in
  outcome (predict file Demo.process) = Raise e /\
  final (predict file Demo.process) = Demo.process /\
  respond (outcome (predict file Demo.process)) = None.
Proof.
  intros e file.
  apply (predict_passes_BaseException file "image/jpeg" Demo.process
           Reading e);
    [reflexivity | reflexivity | apply raises_read; reflexivity | reflexivity].
Defined.

Lemma predict_model_calls_witness :
  tt = model Demo.process /\ false = false.
Proof.
  apply (predict_model_calls (Demo.upload (Some "image/png") Demo.leaf)
           Demo.process tt false [Byte.x02; Byte.x07; Byte.x07]).
  vm_compute. do 4 right. left. reflexivity.
Defined.

(** The same upload in a process that has gradients switched off. *)
Lemma predict_reads_loaded_objects_witness :
  let file := Demo.upload (Some "image/png") Demo.leaf in
  let q := set_grad_enabled false Demo.process in
  outcome (predict file Demo.process) = outcome (predict file q) /\
  trace (predict file Demo.process) = trace (predict file q).
Proof.
  intros file q.
  apply (predict_reads_loaded_objects file Demo.process q); reflexivity.
Defined.

Lemma predict_extractor_calls_witness :
  tt = feature_extractor Demo.process /\
  Image_mode (Libs := Demo.libs) ("RGB", [Byte.x02; Byte.x07; Byte.x07]) =
    "RGB".
Proof.
  apply (predict_extractor_calls (L := Demo.libs) demo_convert_returns_mode
           (Demo.upload (Some "image/png") Demo.leaf) Demo.process tt
           ("RGB", [Byte.x02; Byte.x07; Byte.x07])).
  vm_compute. do 3 right. left. reflexivity.
Defined.

Lemma argmax_last_in_bounds_witness :
  Forall2 (fun (row : list Z) i => i < length row)
    [[2; 7; 7]; [5]]%Z [1; 0].
Proof.
  apply (argmax_last_in_bounds (L := Demo.libs) [[2; 7; 7]; [5]]%Z [1; 0]).
  reflexivity.
Defined.

Lemma argmax_iff_first_max_witness :
  argmax (L := Demo.libs) [2; 7; 7]%Z = inr 1 <->
  first_max (L := Demo.libs) [2; 7; 7]%Z 1.
Proof.
  apply (argmax_iff_first_max (L := Demo.libs) Zleb_total Zleb_trans).
Defined.

Lemma argmax_app_le_witness :
  argmax (L := Demo.libs) ([2; 7]%Z ++ [7; 3]%Z)%list = inr 1.
Proof.
  apply (argmax_app_le (L := Demo.libs) Zleb_total Zleb_trans
           [2; 7]%Z [7; 3]%Z 1 7%Z); [reflexivity | reflexivity |].
  repeat constructor.
Defined.

Lemma loaded_objects_survive_witness :
  let p := serve [Demo.upload (Some "image/png") Demo.leaf;
                  Demo.upload None []; Demo.upload (Some "image/gif") []]
             Demo.process in
  ViTFeatureExtractor_from_pretrained (Libs := Demo.libs)
    "wambugu71/crop_leaf_diseases_vit" = inr (feature_extractor p) /\
  ViTForImageClassification_from_pretrained (Libs := Demo.libs)
    "wambugu1738/crop_leaf_diseases_vit" true = inr (model p) /\
  app p = the_app /\
  grad_enabled p = true /\
  stdout p = ["Loading model..."; "Model loaded successfully!"].
Proof.
  apply (loaded_objects_survive (L := Demo.libs) Demo.process). reflexivity.
Defined.

(** An upload declared as an image that the decoder refuses: the read and
    the open are the only calls. *)
Lemma predict_call_order_witness :
  trace (predict (Demo.upload (Some "image/png") []) Demo.process) =
  [EvRead; EvImageOpen []].
Proof.
  destruct (predict_call_order (Demo.upload (Some "image/png") [])
              Demo.process) as (_ & _ & Hpass & _).
  destruct (Hpass "image/png" eq_refl eq_refl) as (_ & Hopen & _).
  exact (Hopen [] (Exc "UnidentifiedImageError" true
                     "cannot identify image file") eq_refl eq_refl).
Defined.

(** A batch of two rows of width zero. *)
Lemma argmax_last_raises_iff_witness :
  (exists e, argmax_last (L := Demo.libs) [[]; []] = inl e) <->
  In ([] : list Z) [[]; []].
Proof.
  apply (argmax_last_raises_iff (L := Demo.libs) [[]; []]). discriminate.
Defined.
